(** * make_data_for_feedback_tool: phrase mentions and phrase-level columns

    A shallow embedding of [src/make_feedback_tool_data/make_data_for_feedback_tool.py].

    - A Python [str] is a [string]; its characters are read as the code
      points U+0000..U+00FF, on which [str.lower], [str.split] and
      [re.sub] are written out below.
    - A dataframe is the list of its rows, or of the values of one column,
      in index order.
    - The modules the file imports ([PreProcess], [ChunkParser] and the two
      regex classifiers) are interfaces: every function below is defined,
      and every theorem proved, for all their implementations. *)

From Stdlib Require Import List String Ascii Bool Arith Lia.
Import ListNotations.

Local Open Scope string_scope.
Local Open Scope list_scope.
Local Open Scope nat_scope.

(** ** Python values and exceptions *)

(** A cell of an object column: a value, or the float NaN that pandas
    stores for a missing one. *)
Inductive cell (A : Type) : Type :=
| Val (a : A)
| NaN.
Arguments Val {A} a.
Arguments NaN {A}.

Inductive exn : Type :=
| TypeError
| KeyError (k : string).

Inductive result (A : Type) : Type :=
| Ok (a : A)
| Raise (e : exn).
Arguments Ok {A} a.
Arguments Raise {A} e.

Definition bind {A B : Type} (c : result A) (k : A -> result B) : result B :=
  match c with
  | Ok a => k a
  | Raise e => Raise e
  end.

Notation "x <- c ;; k" := (bind c (fun x => k))
  (at level 61, c at next level, right associativity).

(** [Series.map] / [DataFrame.apply(axis=1)] with a function that may
    raise: rows are visited in order and the first exception ends the call. *)
Fixpoint mapM {A B : Type} (f : A -> result B) (l : list A) : result (list B) :=
  match l with
  | [] => Ok []
  | a :: l' =>
      b <- f a ;;
      bs <- mapM f l' ;;
      Ok (b :: bs)
  end.

(** ** Python string operations *)

Fixpoint string_map (f : ascii -> ascii) (s : string) : string :=
  match s with
  | EmptyString => EmptyString
  | String c s' => String (f c) (string_map f s')
  end.

Definition in_range (lo hi n : nat) : bool := (lo <=? n) && (n <=? hi).

(** Characters with an upper-case form below U+0100: A-Z, and
    U+00C0..U+00DE without the multiplication sign U+00D7. *)
Definition is_upper (c : ascii) : bool :=
  let n := nat_of_ascii c in
  in_range 65 90 n || (in_range 192 222 n && negb (n =? 215)).

Definition lower_char (c : ascii) : ascii :=
  if is_upper c then ascii_of_nat (nat_of_ascii c + 32) else c.

(** [s.lower()], exact on the code points below U+0100. Beyond them
    [str.lower] depends on the context of a character, can change the
    length of the string and leaves some upper-case characters as they
    are: the theorems below rest on no property of [lower] other than its
    value on the strings they name. *)
Definition lower (s : string) : string := string_map lower_char s.

(** [str.isspace] on one character: TAB..CR, FS..US, space, NEL, NBSP. *)
Definition isspace (c : ascii) : bool :=
  let n := nat_of_ascii c in
  in_range 9 13 n || in_range 28 32 n || (n =? 133) || (n =? 160).

(** [s.split()] with no argument: the maximal runs of non-whitespace
    characters. [cur] is the run being read, in order. *)
Fixpoint split_from (cur : string) (s : string) : list string :=
  match s with
  | EmptyString =>
      match cur with
      | EmptyString => []
      | _ => [cur]
      end
  | String c s' =>
      if isspace c then
        match cur with
        | EmptyString => split_from EmptyString s'
        | _ => cur :: split_from EmptyString s'
        end
      else split_from (cur ++ String c EmptyString)%string s'
  end.

Definition split (s : string) : list string := split_from EmptyString s.

(** [sep.join(l)] *)
Definition join (sep : string) (l : list string) : string := String.concat sep l.

Definition mem_ascii (c : ascii) (cls : list ascii) : bool :=
  existsb (Ascii.eqb c) cls.

(** [re.sub(pattern, repl, s)] for a pattern that is one character class:
    every match is one character of the class, and each is replaced by
    [repl]. *)
Fixpoint re_sub_class (cls : list ascii) (repl : string) (s : string) : string :=
  match s with
  | EmptyString => EmptyString
  | String c s' =>
      if mem_ascii c cls then (repl ++ re_sub_class cls repl s')%string
      else String c (re_sub_class cls repl s')
  end.

(** The class of the pattern [r"[()\[\]+]"]. *)
Definition bracket_plus : list ascii := ["("; ")"; "["; "]"; "+"]%char.

(** [re.sub(r"[()\[\]+]", "", s)] *)
Definition strip_brackets (s : string) : string :=
  re_sub_class bracket_plus "" s.

(** ** Data *)

(** A tagged token [(word, tag, lemma)]; a tagged document is the list of
    its tagged sentences. *)
Definition TaggedToken : Type := string * string * string.
Definition TaggedDoc : Type := list (list TaggedToken).

(** A chunk, with the two attributes the file reads. *)
Record Chunk : Type := mkChunk { label : string; text : string }.

Definition Key : Type := string * string.

(** The tuple [(key, phrase, mention_theme, (arg1, arg2))]. *)
Definition Mention : Type := Key * string * string * (string * string).

Definition mention_key (m : Mention) : Key :=
  let '(k, _, _, _) := m in k.
Definition mention_phrase (m : Mention) : string :=
  let '(_, p, _, _) := m in p.
Definition mention_theme (m : Mention) : string :=
  let '(_, _, t, _) := m in t.
Definition mention_args (m : Mention) : string * string :=
  let '(_, _, _, a) := m in a.

(** The dict that [find_needle] returns, in insertion order. *)
Definition PhraseDict : Type := list (string * option string).

Definition values (d : PhraseDict) : list (option string) := map snd d.

(** The values of a dict that are present. *)
Definition present_values (d : PhraseDict) : list string :=
  flat_map (fun kv => match snd kv with
                      | Some v => [v]
                      | None => []
                      end) d.

(** ** The imported modules *)

(** [text_chunking.ChunkParser]: [extract_phrase g vals merge] is
    [ChunkParser(g).extract_phrase(vals, merge_inplace=merge)]. *)
Class TextChunking : Type := {
  extract_phrase : string -> TaggedDoc -> bool -> list (list Chunk)
}.

(** [regex_category_identification] *)
Class RegexCategory : Type := {
  regex_for_theme : string -> string;
  regex_group_verbs : string -> string
}.

(** [preprocess.PreProcess]. [compute_combinations sents] is the one call
    the file makes, [PreProcess.compute_combinations(sents, 2)]; the
    2-tuples it yields are pairs, read as [combo[0]] and [combo[1]]. *)
Class PreProcess : Type := {
  replace_pii_regex : cell string -> cell string;
  detect_language : cell string -> string;
  part_of_speech_tag : cell string -> TaggedDoc;
  compute_combinations : list (list Chunk) -> list (Chunk * Chunk);
  resolve_function : list Mention -> list Mention;
  find_needle : string -> string -> PhraseDict
}.

(** ** Dataframe rows *)

(** A row of the survey file: the free-text answer [Q3_x], and the row's
    number standing for the columns the file only copies. *)
Record SurveyRow : Type := mkSurveyRow {
  primary_key : nat;
  Q3_x : cell string
}.

(** A row as [preproccess_filter_comment_text] returns it. *)
Record FilteredRow : Type := mkFilteredRow {
  survey : SurveyRow;
  Q3_pii_removed : cell string;
  language : string;
  is_en : bool
}.

(** The three columns [create_phrase_level_data] writes for one
    [phrase_type]: [<phrase_type>_dict], [<phrase_type>_list] and
    [<phrase_type>]. *)
Record PhraseColumns : Type := mkPhraseColumns {
  col_dict : list (list PhraseDict);
  col_list : list (list string);
  col_display : list string
}.

Record PhraseLevelColumns : Type := mkPhraseLevelColumns {
  Q3_x_edit : list string;
  phrases : PhraseColumns;
  user_phrases : PhraseColumns
}.

Record Dataset : Type := mkDataset {
  rows : list FilteredRow;
  pos_tag : list TaggedDoc;
  theme_mentions : list (list Mention);
  theme_mentions_user : list (list Mention);
  phrase_level : PhraseLevelColumns
}.

(** ** Dicts and series helpers *)

Fixpoint dict_incr (k : string) (d : list (string * nat)) : list (string * nat) :=
  match d with
  | [] => [(k, 1)]
  | (k', n) :: d' =>
      if String.eqb k k' then (k', S n) :: d' else (k', n) :: dict_incr k d'
  end.

(** [series.value_counts().to_dict()]: each value with its number of
    occurrences (the order of the keys is not read). *)
Fixpoint value_counts (l : list string) : list (string * nat) :=
  match l with
  | [] => []
  | x :: l' => dict_incr x (value_counts l')
  end.

(** [d[k]] *)
Fixpoint dict_get (k : string) (d : list (string * nat)) : result nat :=
  match d with
  | [] => Raise (KeyError k)
  | (k', n) :: d' => if String.eqb k k' then Ok n else dict_get k d'
  end.

(** [series.str.len() < t]: NaN has length NaN, and NaN < t is false. *)
Definition str_len_lt (c : cell string) (t : nat) : bool :=
  match c with
  | Val s => String.length s <? t
  | NaN => false
  end.

(** [series.isin(l)] on one value. *)
Definition isin (v : string) (l : list string) : bool :=
  existsb (String.eqb v) l.

(** [key in l] for a tuple of two strings. *)
Definition key_eqb (k1 k2 : Key) : bool :=
  String.eqb (fst k1) (fst k2) && String.eqb (snd k1) (snd k2).

Definition key_in (k : Key) (l : list Key) : bool := existsb (key_eqb k) l.

(** ** The functions of the file *)

Section Source.

Context {TC : TextChunking} {RC : RegexCategory} {PP : PreProcess}.

Definition default_length_threshold : nat := 4000.

Definition english_codes : list string := ["en"; "un"; "-"; "sco"].

(** Lines 18-37. The two [logger.debug] f-strings that index [lang_dist]
    raise [KeyError] when no kept comment has that language. The imported
    functions are taken to return; where the model raises the code raises
    too, possibly earlier and with another exception (the [.str] accessor
    on a column without any string). *)
Definition preproccess_filter_comment_text
    (full_df : list SurveyRow) (length_threshold : nat) : result (list FilteredRow) :=
  let with_pii := map (fun r => (r, replace_pii_regex (Q3_x r))) full_df in
  let short := filter (fun rp => str_len_lt (snd rp) length_threshold) with_pii in
  let with_language := map (fun rp => (rp, detect_language (snd rp))) short in
  let lang_dist := value_counts (map snd with_language) in
  _ <- dict_get "en" lang_dist ;;
  _ <- dict_get "-" lang_dist ;;
  let flagged :=
    map (fun rl =>
           {| survey := fst (fst rl);
              Q3_pii_removed := snd (fst rl);
              language := snd rl;
              is_en := isin (snd rl) english_codes |}) with_language in
  Ok (filter is_en flagged).

(** Lines 78-80. *)
Definition allow_list : list Key :=
  [("verb", "noun"); ("verb", "prep_noun");
   ("verb", "noun_verb"); ("noun", "prep_noun");
   ("prep_noun", "noun"); ("prep_noun", "prep_noun")].

(** Lines 74-86, the body of the loop over the combinations; [acc] is
    [phrase_mentions[-1]]. *)
Definition combo_step (acc : list Mention) (combo : Chunk * Chunk) : list Mention :=
  let key := (label (fst combo), label (snd combo)) in
  let arg1 := lower (text (fst combo)) in
  let arg2 := lower (text (snd combo)) in
  if key_in key allow_list then
    let mention_theme :=
      (regex_group_verbs arg1 ++ " - " ++ regex_for_theme arg2)%string in
    let arg1 := strip_brackets arg1 in
    let arg2 := strip_brackets arg2 in
    let phrase := (arg1 ++ " " ++ arg2)%string in
    acc ++ [(key, phrase, mention_theme, (arg1, arg2))]
  else acc.

(** Lines 71-86, one pass of the loop over [df.pos_tag.values]: the list
    appended for one comment. *)
Definition row_mentions (grammar_filename : string) (vals : TaggedDoc) : list Mention :=
  let sents := extract_phrase grammar_filename vals true in
  fold_left combo_step (compute_combinations sents) [].

(** Lines 55-89: the columns [theme_mentions] and [theme_mentions_user]. *)
Definition extract_phrase_mentions
    (df_pos_tag : list TaggedDoc) (grammar_filename : string)
  : list (list Mention) * list (list Mention) :=
  let phrase_mentions :=
    fold_left (fun pm vals => pm ++ [row_mentions grammar_filename vals])
              df_pos_tag [] in
  (phrase_mentions, map resolve_function phrase_mentions).

(** Line 102, the function applied to each row [x] of
    [df[[theme_col, "Q3_x_edit"]]]: iterating a float raises [TypeError]. *)
Definition phrase_dict_lambda (x : cell (list Mention) * string) : result (list PhraseDict) :=
  match fst x with
  | NaN => Raise TypeError
  | Val ms =>
      Ok (map (fun m : Mention =>
                 let '(_, phrase, _, _) := m in find_needle phrase (lower (snd x)))
              ms)
  end.

(** [[value for value in phrase_dict.values() if value is not None]] *)
Fixpoint values_not_none (vs : list (option string)) : list string :=
  match vs with
  | [] => []
  | Some value :: vs' => value :: values_not_none vs'
  | None :: vs' => values_not_none vs'
  end.

(** Lines 103-106, the function mapped over the [_dict] column. *)
Fixpoint flatten_values (x : list PhraseDict) : list string :=
  match x with
  | [] => []
  | phrase_dict :: x' => values_not_none (values phrase_dict) ++ flatten_values x'
  end.

Definition phrase_list_lambda (x : cell (list PhraseDict)) : list string :=
  match x with
  | NaN => []
  | Val ds => flatten_values ds
  end.

(** Line 108. *)
Definition phrase_join_lambda (x : list string) : string := join ", " x.

(** Lines 92-108, on the two columns it reads, which have the length of
    the dataframe. *)
Definition create_phrase_level_data
    (theme_col : list (cell (list Mention))) (q3_x_edit : list string)
  : result PhraseColumns :=
  dicts <- mapM phrase_dict_lambda (combine theme_col q3_x_edit) ;;
  let lists := map (fun d => phrase_list_lambda (Val d)) dicts in
  Ok {| col_dict := dicts;
        col_list := lists;
        col_display := map phrase_join_lambda lists |}.

(** Lines 118-119 on one cell of [Q3_x]. *)
Definition q3_x_edit_of (c : cell string) : string :=
  let x := match c with
           | NaN => ""
           | Val s => s
           end in
  join " " (split (strip_brackets x)).

(** Lines 111-122. *)
Definition create_phrase_level_columns
    (q3_x : list (cell string))
    (mentions mentions_user : list (cell (list Mention)))
  : result PhraseLevelColumns :=
  let edit := map q3_x_edit_of q3_x in
  p <- create_phrase_level_data mentions edit ;;
  u <- create_phrase_level_data mentions_user edit ;;
  Ok {| Q3_x_edit := edit; phrases := p; user_phrases := u |}.

(** Line 141. *)
Definition pos_tag_lambda (x : cell string * bool) : TaggedDoc :=
  if snd x then part_of_speech_tag (fst x) else [].

(** Lines 139-146: tagging, phrase extraction and the phrase-level
    columns, on the rows that line 137 returned. *)
Definition build_dataset
    (df : list FilteredRow) (grammar_filename : string) : result Dataset :=
  let tags := map (fun r => pos_tag_lambda (Q3_pii_removed r, is_en r)) df in
  let '(tm, tmu) := extract_phrase_mentions tags grammar_filename in
  cols <- create_phrase_level_columns
            (map (fun r => Q3_x (survey r)) df) (map Val tm) (map Val tmu) ;;
  Ok {| rows := df;
        pos_tag := tags;
        theme_mentions := tm;
        theme_mentions_user := tmu;
        phrase_level := cols |}.

(** Lines 125-146, from the rows read from the survey file to the columns
    that are written out. *)
Definition create_dataset
    (survey_data_df : list SurveyRow) (grammar_filename : string) : result Dataset :=
  df <- preproccess_filter_comment_text survey_data_df default_length_threshold ;;
  build_dataset df grammar_filename.

(** *** Names for what the loop of lines 73-86 reads *)

(** The pair of labels of a combination, and whether line 78 accepts it. *)
Definition combo_key (combo : Chunk * Chunk) : Key :=
  (label (fst combo), label (snd combo)).

Definition accepted (combo : Chunk * Chunk) : bool :=
  key_in (combo_key combo) allow_list.

(** The combinations of one comment, as the loop of line 73 meets them. *)
Definition combos_of (g : string) (vals : TaggedDoc) : list (Chunk * Chunk) :=
  compute_combinations (extract_phrase g vals true).

(** The languages detected on the comments that pass the length filter. *)
Definition kept_languages (full_df : list SurveyRow) (t : nat) : list string :=
  map (fun r => detect_language (replace_pii_regex (Q3_x r)))
      (filter (fun r => str_len_lt (replace_pii_regex (Q3_x r)) t) full_df).

(** *** The phrase-level columns of a row whose mentions are a list *)

Definition dict_of_row (x : list Mention * string) : list PhraseDict :=
  map (fun m => find_needle (mention_phrase m) (lower (snd x))) (fst x).

Definition list_of_row (x : list Mention * string) : list string :=
  List.concat (map present_values (dict_of_row x)).

Definition columns_of_rows (sub : list (list Mention * string)) : PhraseColumns :=
  {| col_dict := map dict_of_row sub;
     col_list := map list_of_row sub;
     col_display := map (fun x => String.concat ", " (list_of_row x)) sub |}.

(** *** The rows that the filters of lines 26 and 37 keep *)

Definition keeps (t : nat) (r : SurveyRow) : bool :=
  str_len_lt (replace_pii_regex (Q3_x r)) t
  && isin (detect_language (replace_pii_regex (Q3_x r))) english_codes.

Definition filtered_row_of (r : SurveyRow) : FilteredRow :=
  {| survey := r;
     Q3_pii_removed := replace_pii_regex (Q3_x r);
     language := detect_language (replace_pii_regex (Q3_x r));
     is_en := true |}.

End Source.

(** ** Saving and exporting *)

(** Line 49: [[token[2] for sent in x for token in sent]]. *)
Definition lemmas_lambda (x : TaggedDoc) : list string :=
  flat_map (fun sent => map (fun token : TaggedToken => snd token) sent) x.

(** Line 50: [[token[0] for sent in x for token in sent]]. *)
Definition words_lambda (x : TaggedDoc) : list string :=
  flat_map (fun sent => map (fun token : TaggedToken => fst (fst token)) sent) x.

(** Lines 49-50 of [save_intermediate_df]: the columns [lemmas] and [words]
    computed from the column [pos_tag], before the frame is written. *)
Definition save_intermediate_df (df_pos_tag : list TaggedDoc)
  : list (list string) * list (list string) :=
  (map lemmas_lambda df_pos_tag, map words_lambda df_pos_tag).

(** Lines 150-171. *)
Definition columns_to_keep : list string :=
  ["primary_key"; "intents_clientID"; "visitId"; "fullVisitorId";
   "hits_pagePath"; "Started"; "Ended"; "Q1_x"; "Q2_x"; "Q3_x_edit"; "Q4_x";
   "Q5_x"; "Q6_x"; "Q7_x"; "Q8_x"; "session_id"; "dayofweek"; "isWeekend";
   "hour"; "country"; "country_grouping"; "UK_region"; "UK_metro_area";
   "channelGrouping"; "deviceCategory";
   "total_seconds_in_session_across_days";
   "total_pageviews_in_session_across_days"; "finding_count";
   "updates_and_alerts_count"; "news_count"; "decisions_count";
   "speeches_and_statements_count"; "transactions_count"; "regulation_count";
   "guidance_count"; "business_support_count"; "policy_count";
   "consultations_count"; "research_count"; "statistics_count";
   "transparency_data_count"; "freedom_of_information_releases_count";
   "incidents_count"; "done_page_flag"; "count_client_error";
   "count_server_error"; "ga_visit_start_timestamp";
   "ga_visit_end_timestamp"; "intents_started_date"; "events_sequence";
   "search_terms_sequence"; "cleaned_search_terms_sequence";
   "top_level_taxons_sequence"; "page_format_sequence"; "Sequence";
   "PageSequence"; "flag_for_criteria"; "full_url_in_session_flag"; "UserID";
   "UserNo"; "Name"; "Email"; "IP Address"; "Unique ID"; "Tracking Link";
   "clientID"; "Page Path"; "Q1_y"; "Q2_y"; "Q3_y"; "Q4_y"; "Q5_y"; "Q6_y";
   "Q7_y"; "Q8_y"; "Started_Date"; "Ended_Date"; "Started_Date_sub_12h";
   "phrases"; "user_phrases"].

(** [df.rename(columns={old: new})] on the column labels of [df]. *)
Definition rename_columns (old new : string) (labels : list string) : list string :=
  map (fun c => if String.eqb c old then new else c) labels.

(** [df[keep]] on the column labels of [df]: [KeyError] when a label of
    [keep] is not a column (pandas names all the missing labels in the
    message, the model the first one), else the columns with the labels
    of [keep], in the order of [keep]. *)
Definition select_columns (labels keep : list string) : result (list string) :=
  match find (fun k => negb (isin k labels)) keep with
  | Some k => Raise (KeyError k)
  | None => Ok (flat_map (fun k => filter (String.eqb k) labels) keep)
  end.

(** Lines 173-174 on the column labels of [survey_data_df]: the rename,
    then the selection that is written to the output file. *)
Definition export_columns (labels : list string) : result (list string) :=
  select_columns (rename_columns "Q3_x_edit" "Q3_x" labels) columns_to_keep.

(** ** Reference definitions

    What the specification says in its own words, for comparison with the
    functions above, and implementations of the imported interfaces on
    which the functions can be run. *)


Fixpoint pairs_of (l : list Chunk) : list (Chunk * Chunk) :=
  match l with
  | [] => []
  | c :: l' => map (pair c) l' ++ pairs_of l'
  end.

(** Modelled from the spec: [PreProcess.compute_combinations] is not in the
    file. Section 4.2: for each sentence independently, all 2-combinations
    of its chunk sequence, order-preserving and without repetition;
    sentences with fewer than 2 chunks contribute none. *)
Definition compute_combinations_spec (sents : list (list Chunk)) : list (Chunk * Chunk) :=
  flat_map pairs_of sents.

Fixpoint search_ci (needle haystack : string) : option string :=
  if prefix (lower needle) (lower haystack)
  then Some (substring 0 (String.length needle) haystack)
  else match haystack with
       | EmptyString => None
       | String _ haystack' => search_ci needle haystack'
       end.

(** Modelled from the spec: [PreProcess.find_needle] is not in the file.
    Section 4.4: a case-insensitive substring search that returns the first
    matching substring as it appears in [haystack], or absent. *)
Definition find_needle_spec (phrase haystack : string) : PhraseDict :=
  [(phrase, search_ci phrase haystack)].

(** A word of a normalised text: not empty, without whitespace. *)
Definition is_word (w : string) : Prop :=
  w <> EmptyString
  /\ forall c, In c (list_ascii_of_string w) -> isspace c = false.

(** A word without bracket and plus characters. *)
Definition is_clean_word (w : string) : Prop :=
  is_word w
  /\ forall c, In c (list_ascii_of_string w) -> ~ In c bracket_plus.

(** A parser that finds the chunk sentences [sents] in every comment. *)
Definition constant_parser (sents : list (list Chunk)) : TextChunking :=
  {| extract_phrase := fun _ _ _ => sents |}.

Fixpoint has_char (c : ascii) (s : string) : bool :=
  match s with
  | EmptyString => false
  | String c' s' => Ascii.eqb c c' || has_char c s'
  end.

(** Classifiers that tell a bracketed argument from a plain one. *)
Definition bracket_classifier : RegexCategory :=
  {| regex_for_theme := fun s => if has_char "("%char s then "bracketed" else "unknown";
     regex_group_verbs := fun s => if has_char "["%char s then "bracketed" else "unknown" |}.

Definition language_by_prefix (c : cell string) : string :=
  match c with
  | NaN => "-"
  | Val s =>
      if prefix "le " s then "fr"
      else if prefix "-" s then "-"
      else "en"
  end.

Definition word_tagger (c : cell string) : TaggedDoc :=
  match c with
  | NaN => []
  | Val s => [map (fun w => (w, "NN", lower w)) (split s)]
  end.

(** A [PreProcess] with the two reference functions above, no redaction
    and no resolution. *)
Definition reference_preprocess : PreProcess :=
  {| replace_pii_regex := fun c => c;
     detect_language := language_by_prefix;
     part_of_speech_tag := word_tagger;
     compute_combinations := compute_combinations_spec;
     resolve_function := fun ms => ms;
     find_needle := find_needle_spec |}.

(** A [find_needle] that reports the haystack it was given. *)
Definition echo_preprocess : PreProcess :=
  {| replace_pii_regex := fun c => c;
     detect_language := language_by_prefix;
     part_of_speech_tag := word_tagger;
     compute_combinations := compute_combinations_spec;
     resolve_function := fun ms => ms;
     find_needle := fun phrase haystack => [(phrase, Some haystack)] |}.

(** The chunks of the sentence "Submit the report on time". *)
Definition submit_sentence : list Chunk :=
  [ {| label := "verb"; text := "Submit" |};
    {| label := "noun"; text := "the report" |};
    {| label := "prep_noun"; text := "on time" |} ].

(** A mention with the phrase "project funding", and the comment of the
    span-resolver example. *)
Definition funding_mention : Mention :=
  (("noun", "prep_noun"), "project funding", "unknown - unknown",
   ("project", "funding")).

Definition funding_comment : cell string :=
  Val "We discussed Project Funding yesterday.".

(** A survey of four comments: two in English, one in French and one
    that is a dash. *)
Definition small_survey : list SurveyRow :=
  [ {| primary_key := 0; Q3_x := Val "Submit the report on time" |};
    {| primary_key := 1; Q3_x := Val "le rapport" |};
    {| primary_key := 2; Q3_x := Val "-" |};
    {| primary_key := 3; Q3_x := Val "thanks" |} ].

(** The rows of [small_survey] that the filter keeps. *)
Definition small_survey_kept : list FilteredRow :=
  [ {| survey := {| primary_key := 0; Q3_x := Val "Submit the report on time" |};
       Q3_pii_removed := Val "Submit the report on time";
       language := "en";
       is_en := true |};
    {| survey := {| primary_key := 2; Q3_x := Val "-" |};
       Q3_pii_removed := Val "-";
       language := "-";
       is_en := true |};
    {| survey := {| primary_key := 3; Q3_x := Val "thanks" |};
       Q3_pii_removed := Val "thanks";
       language := "en";
       is_en := true |} ].

(** Two chunks whose texts carry brackets and a plus sign. *)
Definition bracket_sentence : list Chunk :=
  [ {| label := "verb"; text := "Pay [Now]" |};
    {| label := "noun"; text := "tax (2020)+fees" |};
    {| label := "adjective"; text := "late" |} ].

(** * Properties *)

(** ** String operations *)

Lemma strip_brackets_cons (c : ascii) (s : string) :
  strip_brackets (String c s) =
  if mem_ascii c bracket_plus then strip_brackets s
  else String c (strip_brackets s).
Proof.
  unfold strip_brackets; cbn [re_sub_class].
  destruct (mem_ascii c bracket_plus); reflexivity.
Qed.


Lemma strip_brackets_app (s1 s2 : string) :
  strip_brackets (s1 ++ s2) = (strip_brackets s1 ++ strip_brackets s2)%string.
Proof.
  induction s1 as [|c s1 IH]; [reflexivity|].
  cbn [append]. rewrite !strip_brackets_cons.
  destruct (mem_ascii c bracket_plus); cbn [append]; now rewrite IH.
Qed.

(** A character of the class leaves nothing behind: its neighbours fuse. *)
Lemma strip_brackets_fuses (s1 s2 : string) (c : ascii) :
  In c bracket_plus ->
  strip_brackets (s1 ++ String c s2) = (strip_brackets s1 ++ strip_brackets s2)%string.
Proof.
  intros Hc. rewrite strip_brackets_app, strip_brackets_cons.
  replace (mem_ascii c bracket_plus) with true; [reflexivity|].
  symmetry. apply existsb_exists. exists c. split; [assumption|].
  apply Ascii.eqb_refl.
Qed.

Lemma strip_brackets_clean (s : string) (c : ascii) :
  In c (list_ascii_of_string (strip_brackets s)) ->
  In c (list_ascii_of_string s) /\ ~ In c bracket_plus.
Proof.
  induction s as [|c' s IH]; [simpl; tauto|].
  rewrite strip_brackets_cons.
  destruct (mem_ascii c' bracket_plus) eqn:Hm; cbn [list_ascii_of_string In].
  - intros Hin. destruct (IH Hin). tauto.
  - intros [<- | Hin].
    + split; [now left|]. intros Hc.
      assert (mem_ascii c' bracket_plus = true) as Ht; [|congruence].
      apply existsb_exists. exists c'. split; [assumption | apply Ascii.eqb_refl].
    + destruct (IH Hin). tauto.
Qed.

Example strip_brackets_example :
  strip_brackets "pay(e)+tax [2020]" = "payetax 2020"
  /\ re_sub_class bracket_plus " " "pay(e)+tax [2020]" = "pay e  tax  2020 ".
Proof. split; reflexivity. Qed.

(** C8: the bracket/plus-stripping transform, the deletion of every
    occurrence of the characters ( ) [ ] + from a string, is idempotent:
    applying it twice gives the same string as applying it once. *)
Theorem strip_brackets_idempotent (s : string) :
  strip_brackets (strip_brackets s) = strip_brackets s.
Proof.
  induction s as [|c s IH]; [reflexivity|].
  rewrite strip_brackets_cons.
  destruct (mem_ascii c bracket_plus) eqn:Hm; [exact IH|].
  now rewrite strip_brackets_cons, Hm, IH.
Qed.

(** ** Lists and the error monad *)

Lemma fold_left_snoc {A B : Type} (f : A -> B) (l : list A) (acc : list B) :
  fold_left (fun pm a => pm ++ [f a]) l acc = acc ++ map f l.
Proof.
  revert acc. induction l as [|a l IH]; intros acc; cbn [fold_left map].
  - now rewrite app_nil_r.
  - rewrite IH, <- app_assoc. reflexivity.
Qed.

Lemma combine_map_map {A B C : Type} (f : A -> B) (g : A -> C) (l : list A) :
  combine (map f l) (map g l) = map (fun a => (f a, g a)) l.
Proof.
  induction l as [|a l IH]; cbn [map combine]; [reflexivity | now rewrite IH].
Qed.

Lemma mapM_map_ok {A B C : Type} (f : B -> result C) (h : A -> B) (g : A -> C)
    (l : list A) :
  (forall a, In a l -> f (h a) = Ok (g a)) -> mapM f (map h l) = Ok (map g l).
Proof.
  induction l as [|a l IH]; intros Hf; cbn [mapM map]; [reflexivity|].
  rewrite (Hf a (or_introl eq_refl)). cbn [bind].
  rewrite IH; [reflexivity|]. intros b Hb. apply Hf. now right.
Qed.

Lemma key_eqb_eq (k1 k2 : Key) : key_eqb k1 k2 = true <-> k1 = k2.
Proof.
  destruct k1 as [a1 b1], k2 as [a2 b2]. unfold key_eqb; cbn [fst snd].
  rewrite andb_true_iff, !String.eqb_eq. split.
  - intros [-> ->]. reflexivity.
  - intros [= -> ->]. split; reflexivity.
Qed.

Lemma key_in_In (k : Key) (l : list Key) : key_in k l = true <-> In k l.
Proof.
  unfold key_in. rewrite existsb_exists. split.
  - intros [k' [Hin Heq]]. apply key_eqb_eq in Heq. now subst.
  - intros Hin. exists k. split; [assumption | now apply key_eqb_eq].
Qed.

(** ** Phrase mentions *)

Section Mentions.

Context {TC : TextChunking} {RC : RegexCategory} {PP : PreProcess}.

Lemma combo_step_rejected (acc : list Mention) (combo : Chunk * Chunk) :
  accepted combo = false -> combo_step acc combo = acc.
Proof.
  unfold accepted, combo_key, combo_step. now intros ->.
Qed.

Lemma combo_step_accepted (acc : list Mention) (combo : Chunk * Chunk) :
  accepted combo = true ->
  exists m, combo_step acc combo = acc ++ [m]
            /\ mention_key m = combo_key combo
            /\ mention_theme m =
                 (regex_group_verbs (lower (text (fst combo))) ++ " - " ++
                  regex_for_theme (lower (text (snd combo))))%string
            /\ mention_args m =
                 (strip_brackets (lower (text (fst combo))),
                  strip_brackets (lower (text (snd combo))))
            /\ mention_phrase m =
                 (fst (mention_args m) ++ " " ++ snd (mention_args m))%string.
Proof.
  unfold accepted, combo_key, combo_step. intros ->.
  eexists. split; [reflexivity|]. cbn. repeat split; reflexivity.
Qed.

(** The mentions of a comment, one per accepted combination, in the order
    of the combinations. *)
Lemma fold_combo_step (P : Chunk * Chunk -> Mention -> Prop)
    (combos : list (Chunk * Chunk)) (acc : list Mention) :
  (forall combo acc', accepted combo = true ->
     exists m, combo_step acc' combo = acc' ++ [m] /\ P combo m) ->
  exists ms, fold_left combo_step combos acc = acc ++ ms
             /\ Forall2 P (filter accepted combos) ms.
Proof.
  intros Hstep. revert acc.
  induction combos as [|combo combos IH]; intros acc; cbn [fold_left filter].
  - exists []. split; [now rewrite app_nil_r | constructor].
  - destruct (accepted combo) eqn:Hacc.
    + destruct (Hstep combo acc Hacc) as [m [-> Hm]].
      destruct (IH (acc ++ [m])) as [ms [-> Hms]].
      exists (m :: ms). split; [now rewrite <- app_assoc | now constructor].
    + rewrite (combo_step_rejected _ _ Hacc). apply IH.
Qed.

Lemma Forall2_map_eq {A B C : Type} (f : A -> C) (g : B -> C)
    (l : list A) (l' : list B) :
  Forall2 (fun a b => g b = f a) l l' -> map g l' = map f l.
Proof.
  induction 1 as [|a b l l' Hab _ IH]; cbn [map]; [reflexivity | now f_equal].
Qed.

Lemma theme_mentions_map (df_pos_tag : list TaggedDoc) (g : string) :
  fst (extract_phrase_mentions df_pos_tag g) = map (row_mentions g) df_pos_tag.
Proof.
  unfold extract_phrase_mentions; cbn [fst]. now rewrite fold_left_snoc.
Qed.

Lemma row_mentions_keys (g : string) (vals : TaggedDoc) :
  map mention_key (row_mentions g vals) =
  map combo_key (filter accepted (combos_of g vals)).
Proof.
  unfold row_mentions.
  destruct (fold_combo_step (fun combo m => mention_key m = combo_key combo)
              (combos_of g vals) []) as [ms [Hms HP]].
  - intros combo acc' Hacc.
    destruct (combo_step_accepted acc' combo Hacc) as [m [Hm [Hk _]]]. eauto.
  - unfold combos_of in Hms. rewrite Hms. cbn [app].
    now apply Forall2_map_eq.
Qed.

(** C1: every Phrase Mention appended to a row's [theme_mentions] list has
    a key, the pair of the two chunks' labels, in the allow-list of six
    entries (verb,noun), (verb,prep_noun), (verb,noun_verb),
    (noun,prep_noun), (prep_noun,noun), (prep_noun,prep_noun); no mention
    with another key is emitted. *)
Theorem allow_list_closure (df_pos_tag : list TaggedDoc) (g : string) :
  Forall
    (Forall (fun m : Mention =>
               In (mention_key m)
                  [("verb", "noun"); ("verb", "prep_noun");
                   ("verb", "noun_verb"); ("noun", "prep_noun");
                   ("prep_noun", "noun"); ("prep_noun", "prep_noun")]))
    (fst (extract_phrase_mentions df_pos_tag g)).
Proof.
  rewrite theme_mentions_map. apply Forall_forall.
  intros row Hrow. apply in_map_iff in Hrow as [vals [<- _]].
  apply Forall_forall. intros m Hm.
  apply (in_map mention_key) in Hm. rewrite row_mentions_keys in Hm.
  apply in_map_iff in Hm as [combo [<- Hc]].
  apply filter_In in Hc as [_ Hacc].
  now apply key_in_In in Hacc.
Qed.


(** C4: for every accepted chunk pair the theme label is
    "{verb_group} - {theme_category}", the verb-group classifier applied to
    the lower-cased text of [combo[0]] and the theme classifier to the
    lower-cased text of [combo[1]], both before the bracket/plus stripping. *)
Theorem theme_classifies_unstripped_args (g : string) (vals : TaggedDoc) :
  map mention_theme (row_mentions g vals) =
  map (fun combo =>
         String.append (regex_group_verbs (lower (text (fst combo))))
           (String.append " - " (regex_for_theme (lower (text (snd combo))))))
      (filter accepted (combos_of g vals)).
Proof.
  unfold row_mentions.
  destruct (fold_combo_step
              (fun combo m =>
                 mention_theme m =
                 String.append (regex_group_verbs (lower (text (fst combo))))
                   (String.append " - " (regex_for_theme (lower (text (snd combo))))))
              (combos_of g vals) []) as [ms [Hms HP]].
  - intros combo acc' Hacc.
    destruct (combo_step_accepted acc' combo Hacc) as [m [Hm [_ [Ht _]]]].
    eauto.
  - unfold combos_of in Hms. rewrite Hms. cbn [app].
    now apply Forall2_map_eq.
Qed.

End Mentions.

(** ** Phrase-level columns *)

Lemma combine_map_l {A B C : Type} (f : A -> C) (l : list A) (l' : list B) :
  combine (map f l) l' = map (fun x => (f (fst x), snd x)) (combine l l').
Proof.
  revert l'. induction l as [|a l IH]; intros [|b l']; cbn [map combine];
    try reflexivity.
  cbn [fst snd]. now rewrite IH.
Qed.

Lemma nth_error_combine {A B : Type} (l : list A) (l' : list B) (i : nat) (a : A) (b : B) :
  nth_error l i = Some a -> nth_error l' i = Some b ->
  nth_error (combine l l') i = Some (a, b).
Proof.
  revert l l'. induction i as [|i IH]; intros [|a0 l] [|b0 l']; cbn;
    try discriminate.
  - now intros [= ->] [= ->].
  - apply IH.
Qed.

Lemma values_not_none_present (d : PhraseDict) :
  values_not_none (values d) = present_values d.
Proof.
  unfold values, present_values.
  induction d as [|[k [v|]] d IH]; cbn [map values_not_none flat_map snd app];
    [reflexivity | now rewrite IH | exact IH].
Qed.

Lemma flatten_values_concat (ds : list PhraseDict) :
  flatten_values ds = List.concat (map present_values ds).
Proof.
  induction ds as [|d ds IH]; cbn [flatten_values map List.concat];
    [reflexivity | now rewrite values_not_none_present, IH].
Qed.

Section PhraseLevel.

Context {TC : TextChunking} {RC : RegexCategory} {PP : PreProcess}.

Lemma phrase_dict_lambda_list (ms : list Mention) (x1 : string) :
  phrase_dict_lambda (Val ms, x1) = Ok (dict_of_row (ms, x1)).
Proof.
  unfold phrase_dict_lambda, dict_of_row; cbn [fst snd]. f_equal.
  apply map_ext. now intros [[[k p] t] a].
Qed.

Lemma phrase_dict_lambda_raises (x : cell (list Mention) * string) (e : exn) :
  phrase_dict_lambda x = Raise e -> e = TypeError.
Proof.
  unfold phrase_dict_lambda. destruct (fst x); [discriminate | congruence].
Qed.

(** On a column of lists [create_phrase_level_data] returns, with the
    columns written out row by row. *)
Lemma create_phrase_level_data_lists (tm : list (list Mention)) (edit : list string) :
  create_phrase_level_data (map Val tm) edit = Ok (columns_of_rows (combine tm edit)).
Proof.
  unfold create_phrase_level_data, columns_of_rows.
  rewrite combine_map_l.
  rewrite (mapM_map_ok _ _ dict_of_row).
  - cbn [bind]. rewrite !map_map. f_equal. f_equal.
    + apply map_ext. intros x. cbn [phrase_list_lambda].
      apply flatten_values_concat.
    + apply map_ext. intros x. unfold phrase_join_lambda, join.
      cbn [phrase_list_lambda]. now rewrite flatten_values_concat.
  - intros [ms x1] _. cbn [fst snd]. apply phrase_dict_lambda_list.
Qed.

(** C5, as the code has it: a row whose phrase-source column holds NaN
    is not treated as an empty list. Line 102 iterates the cell before the
    float test of line 105 is reached, so the call raises [TypeError],
    whatever the other rows are, and no column is written. *)
Theorem nan_phrase_source_raises
    (before after : list (cell (list Mention) * string)) (x1 : string) :
  create_phrase_level_data
    (map fst (before ++ (NaN, x1) :: after))
    (map snd (before ++ (NaN, x1) :: after)) = Raise TypeError.
Proof.
  unfold create_phrase_level_data.
  rewrite combine_map_map.
  rewrite (map_ext (fun a => (fst a, snd a)) (fun a => a)), map_id
    by now intros [].
  induction before as [|x before IH]; cbn [app mapM].
  - reflexivity.
  - destruct (phrase_dict_lambda x) as [d|e] eqn:Hx; cbn [bind].
    + destruct (mapM phrase_dict_lambda (before ++ (NaN, x1) :: after));
        cbn [bind] in IH |- *; [discriminate IH | exact IH].
    + now rewrite (phrase_dict_lambda_raises x e Hx).
Qed.

(** C6: for every comment row whose mentions are a list, the [_list]
    column holds exactly the values that are not None of the dicts that
    [find_needle] returned for the row's mentions, flattened in mention
    order, and the display column is those values joined with the
    two-character separator ", ". *)
Theorem phrase_list_and_display (sub : list (list Mention * string)) :
  exists cols,
    create_phrase_level_data (map (fun x => Val (fst x)) sub) (map snd sub) = Ok cols
    /\ col_list cols =
         map (fun x =>
                List.concat
                  (map (fun m => present_values
                                   (find_needle (mention_phrase m) (lower (snd x))))
                       (fst x)))
             sub
    /\ col_display cols = map (String.concat ", ") (col_list cols)
    /\ String.length ", " = 2.
Proof.
  exists (columns_of_rows sub). split; [|split; [|split]].
  - rewrite <- (map_map fst Val), create_phrase_level_data_lists.
    rewrite combine_map_map.
    rewrite (map_ext (fun a => (fst a, snd a)) (fun a => a)), map_id
      by now intros [].
    reflexivity.
  - cbn [columns_of_rows col_list]. apply map_ext. intros x.
    unfold list_of_row, dict_of_row. now rewrite map_map.
  - cbn [columns_of_rows col_list col_display]. now rewrite map_map.
  - reflexivity.
Qed.

End PhraseLevel.

(** ** The haystack of the span resolver *)

Section Haystack.

Context {TC : TextChunking} {RC : RegexCategory} {PP : PreProcess}.

(** C2, as the code has it: the haystack that line 102 passes to
    [find_needle] is the comment text with the bracket/plus characters
    stripped and the whitespace normalised (lines 118-119) and then
    lower-cased ([x[1].lower()]). For the comment "We discussed Project
    Funding yesterday." it is "we discussed project funding yesterday.". *)
Theorem haystack_is_lowercased (df : list (cell string * list Mention)) :
  exists cols,
    create_phrase_level_data
      (map (fun r => Val (snd r)) df) (map (fun r => q3_x_edit_of (fst r)) df) = Ok cols
    /\ col_dict cols =
         map (fun r =>
                map (fun m =>
                       find_needle (mention_phrase m)
                         (lower (join " " (split (strip_brackets
                            match fst r with
                            | Val s => s
                            | NaN => ""
                            end)))))
                    (snd r))
             df
    /\ lower (q3_x_edit_of funding_comment) = "we discussed project funding yesterday.".
Proof.
  exists (columns_of_rows (map (fun r => (snd r, q3_x_edit_of (fst r))) df)).
  split; [|split].
  - rewrite <- (map_map snd Val), create_phrase_level_data_lists.
    now rewrite combine_map_map.
  - cbn [columns_of_rows col_dict]. rewrite map_map.
    apply map_ext. intros [q ms]. reflexivity.
  - reflexivity.
Qed.

End Haystack.

(** C2 fails as stated. For the comment "We discussed Project Funding
    yesterday." and a mention with the phrase "project funding", the
    haystack that [find_needle] receives is "we discussed project funding
    yesterday.", not the cleaned comment text, and the resolver of section
    4.4 run by the code resolves "project funding", although on the cleaned
    text itself it finds "Project Funding". *)
Lemma haystack_original_casing_refuted :
  @phrase_dict_lambda echo_preprocess (Val [funding_mention], q3_x_edit_of funding_comment)
  = Ok [[("project funding", Some "we discussed project funding yesterday.")]]
  /\ q3_x_edit_of funding_comment = "We discussed Project Funding yesterday."
  /\ "we discussed project funding yesterday." <> q3_x_edit_of funding_comment
  /\ @create_phrase_level_data reference_preprocess
       [Val [funding_mention]] [q3_x_edit_of funding_comment]
     = Ok {| col_dict := [[[("project funding", Some "project funding")]]];
             col_list := [["project funding"]];
             col_display := ["project funding"] |}
  /\ find_needle_spec "project funding" (q3_x_edit_of funding_comment)
     = [("project funding", Some "Project Funding")].
Proof.
  repeat split; try reflexivity.
  vm_compute. discriminate.
Qed.

(** ** Filtering the comments *)

Lemma dict_get_incr_same (k : string) (d : list (string * nat)) :
  exists n, dict_get k (dict_incr k d) = Ok n.
Proof.
  induction d as [|[k' n'] d IH]; cbn [dict_incr dict_get].
  - rewrite String.eqb_refl. eauto.
  - destruct (String.eqb k k') eqn:Hk; cbn [dict_get]; rewrite Hk; eauto.
Qed.

Lemma dict_get_incr_other (k k' : string) (d : list (string * nat)) :
  k <> k' -> dict_get k (dict_incr k' d) = dict_get k d.
Proof.
  intros Hne. apply String.eqb_neq in Hne.
  induction d as [|[k0 n0] d IH]; cbn [dict_incr dict_get].
  - now rewrite Hne.
  - destruct (String.eqb k' k0) eqn:Hk'; cbn [dict_get].
    + apply String.eqb_eq in Hk' as <-. now rewrite Hne.
    + destruct (String.eqb k k0); [reflexivity | exact IH].
Qed.

Lemma dict_get_value_counts_in (k : string) (l : list string) :
  In k l -> exists n, dict_get k (value_counts l) = Ok n.
Proof.
  induction l as [|x l IH]; [contradiction|]. cbn [value_counts].
  destruct (string_dec k x) as [<- | Hne].
  - intros _. apply dict_get_incr_same.
  - intros [Heq | Hin]; [congruence|].
    rewrite dict_get_incr_other by assumption. now apply IH.
Qed.

Lemma dict_get_value_counts_notin (k : string) (l : list string) :
  ~ In k l -> dict_get k (value_counts l) = Raise (KeyError k).
Proof.
  induction l as [|x l IH]; intros Hnin; cbn [value_counts]; [reflexivity|].
  rewrite dict_get_incr_other.
  - apply IH. intros Hin. apply Hnin. now right.
  - intros ->. apply Hnin. now left.
Qed.

Lemma isin_In (v : string) (l : list string) : isin v l = true <-> In v l.
Proof.
  unfold isin. rewrite existsb_exists. split.
  - intros [x [Hin Heq]]. apply String.eqb_eq in Heq. now subst.
  - intros Hin. exists v. split; [assumption | apply String.eqb_refl].
Qed.

Section Filtering.

Context {TC : TextChunking} {RC : RegexCategory} {PP : PreProcess}.

Lemma kept_languages_eq (full_df : list SurveyRow) (t : nat) :
  map snd
    (map (fun rp : SurveyRow * cell string => (rp, detect_language (snd rp)))
       (filter (fun rp => str_len_lt (snd rp) t)
          (map (fun r => (r, replace_pii_regex (Q3_x r))) full_df)))
  = kept_languages full_df t.
Proof.
  unfold kept_languages. rewrite map_map. cbn [snd].
  induction full_df as [|r df IH]; cbn [map filter snd]; [reflexivity|].
  destruct (str_len_lt (replace_pii_regex (Q3_x r)) t); cbn [map snd];
    now rewrite IH.
Qed.

(** The function returns exactly when some kept comment is detected as
    "en" and some as "-"; otherwise a logging line raises [KeyError]. *)
Lemma preproccess_returns (full_df : list SurveyRow) (t : nat) :
  In "en" (kept_languages full_df t) -> In "-" (kept_languages full_df t) ->
  exists df, preproccess_filter_comment_text full_df t = Ok df.
Proof.
  intros Hen Hdash. unfold preproccess_filter_comment_text.
  rewrite kept_languages_eq.
  destruct (dict_get_value_counts_in _ _ Hen) as [n ->].
  destruct (dict_get_value_counts_in _ _ Hdash) as [n' ->].
  cbn [bind]. eauto.
Qed.

Lemma preproccess_raises (full_df : list SurveyRow) (t : nat) :
  ~ In "en" (kept_languages full_df t) ->
  preproccess_filter_comment_text full_df t = Raise (KeyError "en").
Proof.
  intros Hen. unfold preproccess_filter_comment_text.
  rewrite kept_languages_eq.
  now rewrite (dict_get_value_counts_notin _ _ Hen).
Qed.

(** What the two filters of lines 26 and 37 leave of a row. *)
Lemma filtered_row_inv
    (full_df : list SurveyRow) (t : nat) (df : list FilteredRow) (r : FilteredRow) :
  preproccess_filter_comment_text full_df t = Ok df ->
  In r df ->
  (exists s, Q3_pii_removed r = Val s /\ String.length s < t)
  /\ isin (language r) english_codes = true
  /\ is_en r = true.
Proof.
  unfold preproccess_filter_comment_text.
  destruct (dict_get "en" _); [|discriminate].
  destruct (dict_get "-" _); [|discriminate].
  cbn [bind]. intros [= <-] Hr.
  apply filter_In in Hr as [Hr Hen].
  apply in_map_iff in Hr as [[[r0 pii] lang] [<- Hrl]].
  change (isin lang english_codes = true) in Hen.
  cbn [fst snd survey Q3_pii_removed language is_en] in Hrl |- *.
  apply in_map_iff in Hrl as [[r1 pii1] [[= -> -> <-] Hshort]].
  apply filter_In in Hshort as [_ Hlen]. cbn [snd] in Hlen.
  split; [|split; exact Hen].
  destruct pii as [s|]; [|discriminate]. exists s. split; [reflexivity|].
  cbn [str_len_lt] in Hlen. now apply Nat.ltb_lt.
Qed.

(** C9: every row of the dataframe that [preproccess_filter_comment_text]
    returns has a [Q3_pii_removed] text of length strictly less than
    [length_threshold], and a detected language among "en", "un", "-",
    "sco": its [is_en] flag is true. *)
Theorem filtered_rows_short_and_english
    (full_df : list SurveyRow) (length_threshold : nat)
    (df : list FilteredRow) (r : FilteredRow) :
  preproccess_filter_comment_text full_df length_threshold = Ok df ->
  In r df ->
  (exists s, Q3_pii_removed r = Val s /\ String.length s < length_threshold)
  /\ In (language r) ["en"; "un"; "-"; "sco"]
  /\ is_en r = true.
Proof.
  intros Hdf Hr.
  destruct (filtered_row_inv _ _ _ _ Hdf Hr) as [Hlen [Hlang Hen]].
  split; [exact Hlen | split; [|exact Hen]].
  now apply isin_In in Hlang.
Qed.

End Filtering.

(** ** The dataset *)

Lemma pairs_of_short (l : list Chunk) : List.length l < 2 -> pairs_of l = [].
Proof.
  destruct l as [|c [|c' l]]; cbn; [reflexivity | reflexivity | lia].
Qed.

(** The combinations of section 4.2 keep its promise on short sentences. *)
Lemma compute_combinations_spec_short (sents : list (list Chunk)) :
  Forall (fun sent => List.length sent < 2) sents ->
  compute_combinations_spec sents = [].
Proof.
  unfold compute_combinations_spec.
  induction 1 as [|sent sents Hs _ IH]; cbn [flat_map]; [reflexivity|].
  now rewrite (pairs_of_short _ Hs), IH.
Qed.

Section Dataset.

Context {TC : TextChunking} {RC : RegexCategory} {PP : PreProcess}.

(** Lines 139-146 never raise: every cell of the two mention columns is a
    list. The columns they write are these. *)
Lemma build_dataset_returns (df : list FilteredRow) (g : string) :
  let tags := map (fun r => pos_tag_lambda (Q3_pii_removed r, is_en r)) df in
  let tm := map (row_mentions g) tags in
  let tmu := map resolve_function tm in
  let edit := map q3_x_edit_of (map (fun r => Q3_x (survey r)) df) in
  build_dataset df g =
  Ok {| rows := df;
        pos_tag := tags;
        theme_mentions := tm;
        theme_mentions_user := tmu;
        phrase_level :=
          {| Q3_x_edit := edit;
             phrases := columns_of_rows (combine tm edit);
             user_phrases := columns_of_rows (combine tmu edit) |} |}.
Proof.
  intros tags tm tmu edit. unfold build_dataset.
  fold tags.
  rewrite (surjective_pairing (extract_phrase_mentions tags g)).
  rewrite theme_mentions_map. fold tm.
  replace (snd (extract_phrase_mentions tags g)) with tmu.
  - unfold create_phrase_level_columns. fold edit.
    now rewrite !create_phrase_level_data_lists.
  - unfold extract_phrase_mentions; cbn [snd]. now rewrite fold_left_snoc.
Qed.

(** C7: a comment in which the chunk parser detects no chunk, so that the
    combination generator yields no pair, gets the empty list as its
    [theme_mentions] and the empty string as its [phrases], and lines
    139-146 return. *)
Theorem zero_chunks_empty_phrases
    (df : list FilteredRow) (g : string) (i : nat) (r : FilteredRow) :
  (forall sents, Forall (fun sent => List.length sent < 2) sents ->
                 compute_combinations sents = []) ->
  nth_error df i = Some r ->
  Forall (fun sent => sent = [])
         (extract_phrase g (pos_tag_lambda (Q3_pii_removed r, is_en r)) true) ->
  exists ds,
    build_dataset df g = Ok ds
    /\ nth_error (theme_mentions ds) i = Some []
    /\ nth_error (col_display (phrases (phrase_level ds))) i = Some "".
Proof.
  intros Hgen Hi Hzero.
  eexists. split; [apply build_dataset_returns|].
  cbn [theme_mentions phrase_level phrases columns_of_rows col_display].
  assert (Hrow : row_mentions g (pos_tag_lambda (Q3_pii_removed r, is_en r)) = []).
  { unfold row_mentions. rewrite Hgen; [reflexivity|].
    eapply Forall_impl; [|exact Hzero]. intros sent ->. cbn. lia. }
  assert (Htm : nth_error
                  (map (row_mentions g)
                     (map (fun r => pos_tag_lambda (Q3_pii_removed r, is_en r)) df)) i
                = Some []).
  { rewrite map_map. rewrite <- Hrow.
    apply (map_nth_error (fun r => row_mentions g (pos_tag_lambda (Q3_pii_removed r, is_en r)))).
    exact Hi. }
  split; [exact Htm|].
  assert (Hedit : nth_error (map q3_x_edit_of (map (fun r => Q3_x (survey r)) df)) i
                  = Some (q3_x_edit_of (Q3_x (survey r)))).
  { rewrite map_map.
    apply (map_nth_error (fun r => q3_x_edit_of (Q3_x (survey r)))). exact Hi. }
  rewrite (map_nth_error _ _ _ (nth_error_combine _ _ _ _ _ Htm Hedit)).
  reflexivity.
Qed.

(** C10: in [create_dataset] the branch of line 141 that returns the empty
    list when [is_en] is false is never taken: every row that
    [preproccess_filter_comment_text] returned has [is_en] true, and its
    [pos_tag] is the value of [part_of_speech_tag]. *)
Theorem pos_tag_fallback_unreachable
    (survey_data_df : list SurveyRow) (g : string) (ds : Dataset) :
  create_dataset survey_data_df g = Ok ds ->
  Forall (fun r => is_en r = true) (rows ds)
  /\ pos_tag ds = map (fun r => part_of_speech_tag (Q3_pii_removed r)) (rows ds).
Proof.
  unfold create_dataset.
  destruct (preproccess_filter_comment_text survey_data_df default_length_threshold)
    as [df|e] eqn:Hdf; cbn [bind]; [|discriminate].
  rewrite build_dataset_returns. intros [= <-]. cbn [rows pos_tag].
  assert (Hen : Forall (fun r => is_en r = true) df).
  { apply Forall_forall. intros r Hr.
    apply (filtered_row_inv _ _ _ r Hdf Hr). }
  split; [exact Hen|].
  apply map_ext_in. intros r Hr.
  unfold pos_tag_lambda; cbn [fst snd].
  rewrite Forall_forall in Hen. now rewrite (Hen r Hr).
Qed.

End Dataset.

(** ** Runs on concrete inputs *)

(** The scenario of section 8: three chunks, three accepted pairs. *)
Example submit_sentence_mentions :
  @extract_phrase_mentions (constant_parser [submit_sentence]) bracket_classifier
     reference_preprocess [[]] "grammar.txt"
  = (let ms :=
       [ (("verb", "noun"), "submit the report", "unknown - unknown",
          ("submit", "the report"));
         (("verb", "prep_noun"), "submit on time", "unknown - unknown",
          ("submit", "on time"));
         (("noun", "prep_noun"), "the report on time", "unknown - unknown",
          ("the report", "on time")) ] in
     ([ms], [ms])).
Proof. reflexivity. Qed.

(** Brackets are deleted from the phrase, the classifiers have seen them,
    and the pairs with the label "adjective" are dropped. *)
Example bracket_sentence_mentions :
  @extract_phrase_mentions (constant_parser [bracket_sentence]) bracket_classifier
     reference_preprocess [[]] "grammar.txt"
  = (let ms :=
       [ (("verb", "noun"), "pay now tax 2020fees", "bracketed - bracketed",
          ("pay now", "tax 2020fees")) ] in
     ([ms], [ms])).
Proof. reflexivity. Qed.

Example small_survey_filtered :
  @preproccess_filter_comment_text reference_preprocess small_survey 20
  = Ok [ {| survey := {| primary_key := 2; Q3_x := Val "-" |};
            Q3_pii_removed := Val "-";
            language := "-";
            is_en := true |};
         {| survey := {| primary_key := 3; Q3_x := Val "thanks" |};
            Q3_pii_removed := Val "thanks";
            language := "en";
            is_en := true |} ].
Proof. reflexivity. Qed.

Example no_dash_comment_raises :
  @preproccess_filter_comment_text reference_preprocess
     [ {| primary_key := 0; Q3_x := Val "thanks" |} ] 4000
  = Raise (KeyError "-").
Proof. reflexivity. Qed.

Example nan_row_raises :
  @create_phrase_level_data reference_preprocess
     [Val [funding_mention]; NaN] ["project funding"; "abc"]
  = Raise TypeError.
Proof. reflexivity. Qed.

Lemma filtered_rows_short_and_english_witness :
  let r := {| survey := {| primary_key := 3; Q3_x := Val "thanks" |};
              Q3_pii_removed := Val "thanks";
              language := "en";
              is_en := true |} in
  @preproccess_filter_comment_text reference_preprocess small_survey 4000
    = Ok small_survey_kept
  /\ In r small_survey_kept
  /\ ((exists s, Q3_pii_removed r = Val s /\ String.length s < 4000)
      /\ In (language r) ["en"; "un"; "-"; "sco"]
      /\ is_en r = true).
Proof.
  intros r.
  assert (H1 : @preproccess_filter_comment_text reference_preprocess small_survey 4000
               = Ok small_survey_kept) by (vm_compute; reflexivity).
  assert (H2 : In r small_survey_kept) by (right; right; left; reflexivity).
  split; [exact H1 | split; [exact H2|]].
  exact (@filtered_rows_short_and_english reference_preprocess
           small_survey 4000 small_survey_kept r H1 H2).
Defined.

Lemma zero_chunks_empty_phrases_witness :
  let r := {| survey := {| primary_key := 2; Q3_x := Val "-" |};
              Q3_pii_removed := Val "-";
              language := "-";
              is_en := true |} in
  nth_error small_survey_kept 1 = Some r
  /\ Forall (fun sent : list Chunk => sent = []) [[]; []]
  /\ exists ds,
       @build_dataset (constant_parser [[]; []]) bracket_classifier
          reference_preprocess small_survey_kept "grammar.txt" = Ok ds
       /\ nth_error (theme_mentions ds) 1 = Some []
       /\ nth_error (col_display (phrases (phrase_level ds))) 1 = Some "".
Proof.
  intros r.
  assert (H1 : nth_error small_survey_kept 1 = Some r) by reflexivity.
  assert (H2 : Forall (fun sent : list Chunk => sent = []) [[]; []])
    by (repeat constructor).
  split; [exact H1 | split; [exact H2|]].
  exact (@zero_chunks_empty_phrases (constant_parser [[]; []]) bracket_classifier
           reference_preprocess small_survey_kept "grammar.txt" 1 r
           compute_combinations_spec_short H1 H2).
Defined.

Lemma pos_tag_fallback_unreachable_witness :
  exists ds,
    @create_dataset (constant_parser [submit_sentence]) bracket_classifier
       reference_preprocess small_survey "grammar.txt" = Ok ds
    /\ Forall (fun r => is_en r = true) (rows ds)
    /\ pos_tag ds = map (fun r => word_tagger (Q3_pii_removed r)) (rows ds).
Proof.
  eexists. split.
  - vm_compute. reflexivity.
  - apply (@pos_tag_fallback_unreachable (constant_parser [submit_sentence])
             bracket_classifier reference_preprocess small_survey "grammar.txt").
    vm_compute. reflexivity.
Defined.

(** * Further properties *)

(** ** The outcome of the comment filter *)

Lemma isin_value_counts (k : string) (l : list string) :
  dict_get k (value_counts l) =
  if isin k l then dict_get k (value_counts l) else Raise (KeyError k).
Proof.
  destruct (isin k l) eqn:Hk; [reflexivity|].
  apply dict_get_value_counts_notin. intros Hin.
  apply isin_In in Hin. congruence.
Qed.

Section FilterOutcome.

Context {PP : PreProcess}.

Lemma flagged_rows_eq (full_df : list SurveyRow) (t : nat) :
  filter is_en
    (map (fun rl : SurveyRow * cell string * string =>
            {| survey := fst (fst rl);
               Q3_pii_removed := snd (fst rl);
               language := snd rl;
               is_en := isin (snd rl) english_codes |})
       (map (fun rp : SurveyRow * cell string => (rp, detect_language (snd rp)))
          (filter (fun rp => str_len_lt (snd rp) t)
             (map (fun r => (r, replace_pii_regex (Q3_x r))) full_df))))
  = map filtered_row_of (filter (keeps t) full_df).
Proof.
  induction full_df as [|r df IH]; [reflexivity|].
  cbn [map filter snd]. unfold keeps at 1.
  destruct (str_len_lt (replace_pii_regex (Q3_x r)) t) eqn:Hlen;
    cbn [andb]; [|exact IH].
  cbn [map filter fst snd is_en].
  destruct (isin (detect_language (replace_pii_regex (Q3_x r))) english_codes)
    eqn:Hlang; [|exact IH].
  cbn [map]. rewrite IH. reflexivity.
Qed.

(** The three ways through lines 18-37. *)
Lemma preproccess_cases (full_df : list SurveyRow) (t : nat) :
  preproccess_filter_comment_text full_df t =
  if isin "en" (kept_languages full_df t) then
    if isin "-" (kept_languages full_df t) then
      Ok (map filtered_row_of (filter (keeps t) full_df))
    else Raise (KeyError "-")
  else Raise (KeyError "en").
Proof.
  unfold preproccess_filter_comment_text.
  rewrite flagged_rows_eq, kept_languages_eq.
  rewrite (isin_value_counts "en").
  destruct (isin "en" (kept_languages full_df t)) eqn:Hen; [|reflexivity].
  apply isin_In, dict_get_value_counts_in in Hen as [n ->]. cbn [bind].
  rewrite (isin_value_counts "-").
  destruct (isin "-" (kept_languages full_df t)) eqn:Hdash; [|reflexivity].
  apply isin_In, dict_get_value_counts_in in Hdash as [n' ->]. reflexivity.
Qed.




Lemma str_len_lt_mono (c : cell string) (t t' : nat) :
  t <= t' -> str_len_lt c t = true -> str_len_lt c t' = true.
Proof.
  intros Hle. destruct c as [s|]; cbn [str_len_lt]; [|discriminate].
  rewrite !Nat.ltb_lt. lia.
Qed.

Lemma keeps_mono (r : SurveyRow) (t t' : nat) :
  t <= t' -> keeps t r = true -> keeps t' r = true.
Proof.
  unfold keeps. rewrite !andb_true_iff. intros Hle [Hlen Hlang].
  split; [now apply (str_len_lt_mono _ t) | exact Hlang].
Qed.

Lemma kept_languages_mono (full_df : list SurveyRow) (t t' : nat) (k : string) :
  t <= t' -> In k (kept_languages full_df t) -> In k (kept_languages full_df t').
Proof.
  unfold kept_languages. intros Hle Hin.
  apply in_map_iff in Hin as [r [<- Hr]]. apply filter_In in Hr as [Hr Hlen].
  apply in_map_iff. exists r. split; [reflexivity|].
  apply filter_In. split; [exact Hr | now apply (str_len_lt_mono _ t)].
Qed.

(** X3: raising the length threshold loses nothing. If the function
    returns with threshold [t], it returns with every larger threshold, and
    every row it returned is returned again. *)
Theorem preproccess_threshold_monotone
    (full_df : list SurveyRow) (t t' : nat) (df : list FilteredRow) :
  t <= t' ->
  preproccess_filter_comment_text full_df t = Ok df ->
  exists df', preproccess_filter_comment_text full_df t' = Ok df'
              /\ incl df df'.
Proof.
  intros Hle. rewrite !preproccess_cases.
  destruct (isin "en" (kept_languages full_df t)) eqn:Hen; [|discriminate].
  destruct (isin "-" (kept_languages full_df t)) eqn:Hdash; [|discriminate].
  intros [= <-].
  apply isin_In, (kept_languages_mono _ _ _ _ Hle), isin_In in Hen as ->.
  apply isin_In, (kept_languages_mono _ _ _ _ Hle), isin_In in Hdash as ->.
  eexists. split; [reflexivity|].
  intros row Hrow. apply in_map_iff in Hrow as [r [<- Hr]].
  apply filter_In in Hr as [Hr Hk].
  apply in_map. apply filter_In. split; [exact Hr | now apply (keeps_mono _ t)].
Qed.

End FilterOutcome.

Lemma preproccess_threshold_monotone_witness :
  20 <= 4000
  /\ @preproccess_filter_comment_text reference_preprocess small_survey 20
     = Ok (skipn 1 small_survey_kept)
  /\ exists df',
       @preproccess_filter_comment_text reference_preprocess small_survey 4000 = Ok df'
       /\ incl (skipn 1 small_survey_kept) df'.
Proof.
  assert (H1 : 20 <= 4000) by lia.
  assert (H2 : @preproccess_filter_comment_text reference_preprocess small_survey 20
               = Ok (skipn 1 small_survey_kept)) by reflexivity.
  split; [exact H1 | split; [exact H2|]].
  exact (@preproccess_threshold_monotone reference_preprocess
           small_survey 20 4000 (skipn 1 small_survey_kept) H1 H2).
Defined.

(** ** The cached columns *)

Lemma combine_app_same {A B : Type} (l1 l2 : list A) (m1 m2 : list B) :
  List.length l1 = List.length m1 ->
  combine (l1 ++ l2) (m1 ++ m2) = combine l1 m1 ++ combine l2 m2.
Proof.
  revert m1. induction l1 as [|a l1 IH]; intros [|b m1]; cbn; try discriminate.
  - reflexivity.
  - intros [= Hlen]. now rewrite IH.
Qed.

(** X4: the [words] and [lemmas] that [save_intermediate_df] writes for a
    comment are aligned. Both have one entry per token of the comment,
    sentence after sentence, and the word and the lemma at one position come
    from the same token. *)
Theorem words_lemmas_aligned (x : TaggedDoc) :
  combine (words_lambda x) (lemmas_lambda x) =
    map (fun token : TaggedToken => (fst (fst token), snd token)) (List.concat x)
  /\ List.length (words_lambda x) = List.length (List.concat x)
  /\ List.length (lemmas_lambda x) = List.length (List.concat x).
Proof.
  unfold words_lambda, lemmas_lambda.
  induction x as [|sent x [IHc [IHw IHl]]]; cbn [flat_map List.concat].
  - repeat split.
  - rewrite combine_app_same by now rewrite !length_map.
    rewrite map_app, IHc, !length_app, IHw, IHl, !length_map.
    repeat split. f_equal.
    rewrite combine_map_map. reflexivity.
Qed.

(** ** Phrase mentions, row by row *)

Lemma in_append_chars (s1 s2 : string) (c : ascii) :
  In c (list_ascii_of_string (s1 ++ s2)) <->
  In c (list_ascii_of_string s1) \/ In c (list_ascii_of_string s2).
Proof.
  induction s1 as [|c1 s1 IH]; cbn [append list_ascii_of_string In]; [tauto|].
  rewrite IH. tauto.
Qed.

Section MentionRows.

Context {TC : TextChunking} {RC : RegexCategory} {PP : PreProcess}.

(** X5: the mention columns are aligned with the comments. Row [i] of
    [theme_mentions] is computed from row [i] of [pos_tag] alone, row [i]
    of [theme_mentions_user] is [resolve_function] of it, and both columns
    have one row per comment. *)
Theorem mention_columns_aligned (df_pos_tag : list TaggedDoc) (g : string) (i : nat) :
  nth_error (fst (extract_phrase_mentions df_pos_tag g)) i
    = option_map (row_mentions g) (nth_error df_pos_tag i)
  /\ nth_error (snd (extract_phrase_mentions df_pos_tag g)) i
    = option_map (fun vals => resolve_function (row_mentions g vals))
                 (nth_error df_pos_tag i)
  /\ List.length (fst (extract_phrase_mentions df_pos_tag g)) = List.length df_pos_tag
  /\ List.length (snd (extract_phrase_mentions df_pos_tag g)) = List.length df_pos_tag.
Proof.
  unfold extract_phrase_mentions; cbn [fst snd].
  rewrite fold_left_snoc; cbn [app].
  rewrite !nth_error_map, !length_map.
  repeat split. now destruct (nth_error df_pos_tag i).
Qed.

(** X6: no allow-listed pair is lost. Every combination of a comment whose
    pair of labels is in the allow-list has a mention in the comment's
    list, with that key and with the two stripped lower-cased texts as
    arguments. *)
Theorem accepted_pair_is_emitted
    (g : string) (vals : TaggedDoc) (combo : Chunk * Chunk) :
  In combo (combos_of g vals) ->
  In (label (fst combo), label (snd combo)) allow_list ->
  exists m,
    In m (row_mentions g vals)
    /\ mention_key m = (label (fst combo), label (snd combo))
    /\ mention_args m = (strip_brackets (lower (text (fst combo))),
                         strip_brackets (lower (text (snd combo)))).
Proof.
  intros Hin Hkey.
  assert (Hacc : accepted combo = true) by now apply key_in_In.
  unfold row_mentions.
  destruct (fold_combo_step
              (fun c m => mention_key m = combo_key c
                          /\ mention_args m =
                             (strip_brackets (lower (text (fst c))),
                              strip_brackets (lower (text (snd c)))))
              (combos_of g vals) []) as [ms [Hms HP]].
  - intros c acc' Hc.
    destruct (combo_step_accepted acc' c Hc) as [m [Hm [Hk [_ [Ha _]]]]]. eauto.
  - unfold combos_of in Hms. rewrite Hms. cbn [app].
    assert (Hf : In combo (filter accepted (combos_of g vals)))
      by (apply filter_In; now split).
    clear Hms. induction HP as [|c m cs ms' [Hk Ha] _ IH]; [contradiction|].
    destruct Hf as [-> | Hf].
    + exists m. split; [now left | now split].
    + destruct (IH Hf) as [m' [Hm' Hrest]]. exists m'. split; [now right | exact Hrest].
Qed.

(** X7: a phrase never contains a bracket or a plus sign, and neither do
    the two arguments stored with it. *)
Theorem phrase_has_no_brackets (g : string) (vals : TaggedDoc) :
  Forall (fun m : Mention =>
            forall c,
              In c (list_ascii_of_string (mention_phrase m))
              \/ In c (list_ascii_of_string (fst (mention_args m)))
              \/ In c (list_ascii_of_string (snd (mention_args m))) ->
              ~ In c bracket_plus)
         (row_mentions g vals).
Proof.
  unfold row_mentions.
  destruct (fold_combo_step
              (fun (_ : Chunk * Chunk) (m : Mention) =>
                 forall c,
                   In c (list_ascii_of_string (mention_phrase m))
                   \/ In c (list_ascii_of_string (fst (mention_args m)))
                   \/ In c (list_ascii_of_string (snd (mention_args m))) ->
                   ~ In c bracket_plus)
              (combos_of g vals) []) as [ms [Hms HP]].
  - intros combo acc' Hacc.
    destruct (combo_step_accepted acc' combo Hacc) as [m [Hm [_ [_ [Ha Hp]]]]].
    exists m. split; [exact Hm|]. intros c.
    rewrite Hp, Ha. cbn [fst snd].
    rewrite !in_append_chars. cbn [list_ascii_of_string In].
    intros [[H1 | [[<- | []] | H2]] | [H1 | H2]];
      try (now apply strip_brackets_clean in H1);
      try (now apply strip_brackets_clean in H2).
    cbn. intuition discriminate.
  - unfold combos_of in Hms. rewrite Hms. cbn [app].
    clear Hms. induction HP; constructor; assumption.
Qed.

End MentionRows.

Lemma accepted_pair_is_emitted_witness :
  let verb := {| label := "verb"; text := "Submit" |} in
  let prep := {| label := "prep_noun"; text := "on time" |} in
  In (verb, prep)
     (@combos_of (constant_parser [submit_sentence]) reference_preprocess "grammar.txt" [])
  /\ In (label verb, label prep) allow_list
  /\ exists m,
       In m (@row_mentions (constant_parser [submit_sentence]) bracket_classifier
               reference_preprocess "grammar.txt" [])
       /\ mention_key m = ("verb", "prep_noun")
       /\ mention_args m = ("submit", "on time").
Proof.
  intros verb prep.
  assert (H1 : In (verb, prep)
                 (@combos_of (constant_parser [submit_sentence]) reference_preprocess
                    "grammar.txt" [])) by (right; left; reflexivity).
  assert (H2 : In (label (fst (verb, prep)), label (snd (verb, prep))) allow_list)
    by (right; left; reflexivity).
  split; [exact H1 | split; [exact H2|]].
  exact (@accepted_pair_is_emitted (constant_parser [submit_sentence]) bracket_classifier
           reference_preprocess "grammar.txt" [] (verb, prep) H1 H2).
Defined.

(** ** Words and whitespace *)

Lemma string_app_nil_r (s : string) : (s ++ "")%string = s.
Proof.
  induction s as [|c s IH]; cbn [append]; [reflexivity | now rewrite IH].
Qed.

Lemma string_app_assoc (s1 s2 s3 : string) :
  ((s1 ++ s2) ++ s3)%string = (s1 ++ (s2 ++ s3))%string.
Proof.
  induction s1 as [|c s1 IH]; cbn [append]; [reflexivity | now rewrite IH].
Qed.

Lemma string_app_empty (s1 s2 : string) :
  (s1 ++ s2)%string = EmptyString -> s1 = EmptyString /\ s2 = EmptyString.
Proof.
  destruct s1; cbn [append]; [now split | discriminate].
Qed.

(** The words that [split_from] returns: the run [cur] being read is
    closed by the next whitespace character. *)
Lemma split_from_words (s cur : string) :
  (forall c, In c (list_ascii_of_string cur) -> isspace c = false) ->
  Forall (fun w =>
            is_word w
            /\ forall c, In c (list_ascii_of_string w) ->
                         In c (list_ascii_of_string cur)
                         \/ In c (list_ascii_of_string s))
         (split_from cur s).
Proof.
  revert cur. induction s as [|c s IH]; intros cur Hcur; cbn [split_from].
  - destruct cur as [|c0 cur0] eqn:Ecur; constructor; [|constructor].
    split; [split; [discriminate | exact Hcur] | tauto].
  - destruct (isspace c) eqn:Hc.
    + assert (Hrest : Forall (fun w =>
                is_word w
                /\ forall c', In c' (list_ascii_of_string w) ->
                     In c' (list_ascii_of_string cur)
                     \/ In c' (list_ascii_of_string (String c s)))
              (split_from EmptyString s)).
      { eapply Forall_impl; [|apply (IH EmptyString); cbn; tauto].
        intros w [Hw Hin]. split; [exact Hw|].
        intros c' Hc'. destruct (Hin c' Hc') as [[] | H]. right. now right. }
      destruct cur as [|c0 cur0] eqn:Ecur; [exact Hrest|].
      constructor; [|exact Hrest].
      split; [split; [discriminate | exact Hcur] | tauto].
    + eapply Forall_impl; [|apply (IH (cur ++ String c EmptyString)%string)].
      * intros w [Hw Hin]. split; [exact Hw|].
        intros c' Hc'. destruct (Hin c' Hc') as [H | H].
        -- apply in_append_chars in H as [H | [<- | []]];
             [now left | right; now left].
        -- right. now right.
      * intros c' Hc'. apply in_append_chars in Hc' as [H | [<- | []]];
          [now apply Hcur | exact Hc].
Qed.

Lemma split_from_app_word (w cur s : string) :
  (forall c, In c (list_ascii_of_string w) -> isspace c = false) ->
  split_from cur (w ++ s) = split_from (cur ++ w) s.
Proof.
  revert cur. induction w as [|c w IH]; intros cur Hw; cbn [append].
  - now rewrite string_app_nil_r.
  - cbn [split_from]. rewrite (Hw c) by now left.
    rewrite IH by (intros c' Hc'; apply Hw; now right).
    now rewrite string_app_assoc.
Qed.

(** Splitting a text made of words and single spaces gives the words back. *)
Lemma split_join_words (ws : list string) :
  Forall is_word ws -> split (join " " ws) = ws.
Proof.
  unfold split, join.
  induction 1 as [|w ws [Hne Hw] Hws IH]; [reflexivity|].
  destruct ws as [|w' ws'].
  - cbn [String.concat]. rewrite <- (string_app_nil_r w) at 1.
    rewrite split_from_app_word by exact Hw. cbn [append split_from].
    destruct w; [contradiction | reflexivity].
  - change (String.concat " " (w :: w' :: ws'))
      with (w ++ String " " (String.concat " " (w' :: ws')))%string.
    rewrite split_from_app_word by exact Hw. cbn [append].
    cbn [split_from].
    change (isspace " ") with true. cbv iota.
    rewrite IH. destruct w; [contradiction | reflexivity].
Qed.

Lemma in_concat_chars (sep : string) (ws : list string) (c : ascii) :
  In c (list_ascii_of_string (String.concat sep ws)) ->
  In c (list_ascii_of_string sep)
  \/ exists w, In w ws /\ In c (list_ascii_of_string w).
Proof.
  induction ws as [|w ws IH]; [contradiction|].
  destruct ws as [|w' ws'].
  - cbn [String.concat]. intros Hc. right. exists w. split; [now left | exact Hc].
  - change (String.concat sep (w :: w' :: ws'))
      with (w ++ sep ++ String.concat sep (w' :: ws'))%string.
    rewrite !in_append_chars. intros [Hc | [Hc | Hc]].
    + right. exists w. split; [now left | exact Hc].
    + now left.
    + destruct (IH Hc) as [H | [w0 [Hw0 H]]]; [now left|].
      right. exists w0. split; [now right | exact H].
Qed.

Lemma strip_brackets_id (s : string) :
  (forall c, In c (list_ascii_of_string s) -> ~ In c bracket_plus) ->
  strip_brackets s = s.
Proof.
  induction s as [|c s IH]; intros Hs; [reflexivity|].
  rewrite strip_brackets_cons.
  destruct (mem_ascii c bracket_plus) eqn:Hm.
  - exfalso. apply (Hs c); [now left|].
    apply existsb_exists in Hm as [c' [Hin Heq]].
    apply Ascii.eqb_eq in Heq. now subst.
  - rewrite IH; [reflexivity|]. intros c' Hc'. apply Hs. now right.
Qed.

Lemma split_from_blank (s : string) :
  (forall c, In c (list_ascii_of_string s) -> isspace c = true) ->
  split_from EmptyString s = [].
Proof.
  induction s as [|c s IH]; intros Hs; cbn [split_from]; [reflexivity|].
  rewrite (Hs c) by now left. apply IH. intros c' Hc'. apply Hs. now right.
Qed.

(** The words of the edited text of a cell. *)
Lemma q3_x_edit_words (c : cell string) :
  exists ws, q3_x_edit_of c = join " " ws /\ Forall is_clean_word ws.
Proof.
  unfold q3_x_edit_of.
  set (x := match c with
            | Val s => s
            | NaN => EmptyString
            end).
  exists (split (strip_brackets x)). split; [reflexivity|].
  unfold split.
  eapply Forall_impl;
    [|apply (split_from_words (strip_brackets x) EmptyString); cbn; tauto].
  intros w [Hw Hin]. split; [exact Hw|].
  intros ch Hch. destruct (Hin ch Hch) as [[] | H].
  now apply strip_brackets_clean in H.
Qed.

(** X9: the edited comment text is normalised. It is a sequence of
    non-empty words joined by single spaces; no word holds a whitespace,
    bracket or plus character, so in the whole text no such character is
    left and the only whitespace is the single space between two words. *)
Theorem q3_x_edit_normal_form (c : cell string) :
  (exists ws, q3_x_edit_of c = String.concat " " ws /\ Forall is_clean_word ws)
  /\ Forall (fun ch => ~ In ch bracket_plus /\ (isspace ch = true -> ch = " "%char))
            (list_ascii_of_string (q3_x_edit_of c)).
Proof.
  destruct (q3_x_edit_words c) as [ws [Heq Hws]].
  split; [now exists ws|].
  rewrite Heq. apply Forall_forall. intros ch Hch.
  apply in_concat_chars in Hch as [[<- | []] | [w [Hw Hch]]].
  - split; [|reflexivity]. cbn. intuition discriminate.
  - rewrite Forall_forall in Hws. destruct (Hws w Hw) as [[_ Hsp] Hcl].
    split; [now apply Hcl|]. rewrite (Hsp ch Hch). discriminate.
Qed.

(** X10: editing an edited text changes nothing. The column [Q3_x_edit],
    which line 173 renames to [Q3_x], is a fixed point of lines 118-119. *)
Theorem q3_x_edit_idempotent (c : cell string) :
  q3_x_edit_of (Val (q3_x_edit_of c)) = q3_x_edit_of c.
Proof.
  destruct (q3_x_edit_words c) as [ws [-> Hws]].
  unfold q3_x_edit_of at 1.
  rewrite strip_brackets_id.
  - rewrite split_join_words; [reflexivity|].
    eapply Forall_impl; [|exact Hws]. now intros w [Hw _].
  - intros ch Hch. apply in_concat_chars in Hch as [[<- | []] | [w [Hw Hch]]].
    + cbn. intuition discriminate.
    + rewrite Forall_forall in Hws. now apply (Hws w Hw).
Qed.

(** X11: a missing comment and a comment made only of whitespace, brackets
    and plus signs are both edited to the empty string. *)
Theorem q3_x_edit_blank (s : string) :
  (forall ch, In ch (list_ascii_of_string s) ->
              isspace ch = true \/ In ch bracket_plus) ->
  q3_x_edit_of (Val s) = "" /\ q3_x_edit_of NaN = "".
Proof.
  intros Hs. split; [|reflexivity].
  unfold q3_x_edit_of, split. rewrite split_from_blank; [reflexivity|].
  intros ch Hch. apply strip_brackets_clean in Hch as [Hin Hcl].
  destruct (Hs ch Hin) as [H | H]; [exact H | contradiction].
Qed.

Lemma q3_x_edit_blank_witness :
  (forall ch, In ch (list_ascii_of_string " ( [+] ) ") ->
              isspace ch = true \/ In ch bracket_plus)
  /\ q3_x_edit_of (Val " ( [+] ) ") = "" /\ q3_x_edit_of NaN = "".
Proof.
  assert (H : forall ch, In ch (list_ascii_of_string " ( [+] ) ") ->
                         isspace ch = true \/ In ch bracket_plus).
  { intros ch Hch. cbn in Hch.
    repeat (destruct Hch as [<- | Hch]; [cbn; tauto|]). contradiction. }
  split; [exact H|].
  exact (q3_x_edit_blank " ( [+] ) " H).
Defined.

(** ** When the phrase-level columns are written *)

Lemma mapM_length {A B : Type} (f : A -> result B) (l : list A) (bs : list B) :
  mapM f l = Ok bs -> List.length bs = List.length l.
Proof.
  revert bs. induction l as [|a l IH]; intros bs; cbn [mapM].
  - now intros [= <-].
  - destruct (f a) as [b|e]; cbn [bind]; [|discriminate].
    destruct (mapM f l) as [bs'|e]; cbn [bind]; [|discriminate].
    intros [= <-]. cbn [List.length]. now rewrite (IH bs').
Qed.

Lemma present_values_none (d : PhraseDict) :
  (forall kv, In kv d -> snd kv = None) -> present_values d = [].
Proof.
  unfold present_values.
  induction d as [|kv d IH]; intros Hd; cbn [flat_map]; [reflexivity|].
  rewrite (Hd kv) by now left. cbn [app]. apply IH.
  intros kv' Hkv'. apply Hd. now right.
Qed.

Section PhraseLevelOutcome.

Context {PP : PreProcess}.

Lemma mapM_phrase_dict_iff (sub : list (cell (list Mention) * string)) :
  (exists ds, mapM phrase_dict_lambda sub = Ok ds)
  <-> Forall (fun x => fst x <> NaN) sub.
Proof.
  induction sub as [|x sub IH]; cbn [mapM].
  - split; [constructor | eauto].
  - split.
    + intros [ds Hds].
      destruct (phrase_dict_lambda x) as [d|e] eqn:Hx; cbn [bind] in Hds;
        [|discriminate].
      destruct (mapM phrase_dict_lambda sub) as [ds'|e]; cbn [bind] in Hds;
        [|discriminate].
      constructor; [|apply IH; eauto].
      unfold phrase_dict_lambda in Hx. intros Hnan. rewrite Hnan in Hx.
      discriminate.
    + intros Hall. inversion Hall as [|x' sub' Hx Hsub]; subst.
      apply IH in Hsub as [ds' ->].
      destruct x as [[ms|] x1]; cbn [fst] in Hx; [|contradiction].
      rewrite phrase_dict_lambda_list. cbn [bind]. eauto.
Qed.

(** X12: [create_phrase_level_data] returns exactly when no cell of the
    phrase-source column is NaN; one NaN cell anywhere keeps all three
    columns from being written. *)
Theorem phrase_level_data_returns_iff (sub : list (cell (list Mention) * string)) :
  (exists cols, create_phrase_level_data (map fst sub) (map snd sub) = Ok cols)
  <-> Forall (fun x => fst x <> NaN) sub.
Proof.
  unfold create_phrase_level_data.
  rewrite combine_map_map.
  rewrite (map_ext (fun a => (fst a, snd a)) (fun a => a)), map_id
    by now intros [].
  rewrite <- mapM_phrase_dict_iff. split.
  - intros [cols Hcols].
    destruct (mapM phrase_dict_lambda sub) as [ds|e]; cbn [bind] in Hcols;
      [eauto | discriminate].
  - intros [ds ->]. cbn [bind]. eauto.
Qed.

(** X13: the three columns that [create_phrase_level_data] writes have one
    row per row of the dataframe. *)
Theorem phrase_columns_lengths
    (theme_col : list (cell (list Mention))) (q3_x_edit : list string)
    (cols : PhraseColumns) :
  List.length theme_col = List.length q3_x_edit ->
  create_phrase_level_data theme_col q3_x_edit = Ok cols ->
  List.length (col_dict cols) = List.length theme_col
  /\ List.length (col_list cols) = List.length theme_col
  /\ List.length (col_display cols) = List.length theme_col.
Proof.
  intros Hlen. unfold create_phrase_level_data.
  destruct (mapM phrase_dict_lambda (combine theme_col q3_x_edit)) as [ds|e] eqn:Hds;
    cbn [bind]; [|discriminate].
  intros [= <-]. cbn [col_dict col_list col_display].
  apply mapM_length in Hds. rewrite length_combine, <- Hlen, Nat.min_id in Hds.
  now rewrite !length_map.
Qed.

(** X14: a row for which the span resolver finds nothing gets the empty
    list and the empty display string. Mentions whose dicts hold only None
    leave no trace in the output. *)
Theorem unresolved_row_is_empty
    (sub : list (list Mention * string)) (i : nat) (x : list Mention * string) :
  nth_error sub i = Some x ->
  (forall m kv, In m (fst x) ->
                In kv (find_needle (mention_phrase m) (lower (snd x))) ->
                snd kv = None) ->
  exists cols,
    create_phrase_level_data (map (fun x => Val (fst x)) sub) (map snd sub) = Ok cols
    /\ nth_error (col_list cols) i = Some []
    /\ nth_error (col_display cols) i = Some "".
Proof.
  intros Hi Hnone.
  assert (Hlist : list_of_row x = []).
  { unfold list_of_row, dict_of_row. rewrite map_map.
    apply concat_nil_Forall, Forall_forall. intros l Hl.
    apply in_map_iff in Hl as [m [<- Hm]].
    apply present_values_none. intros kv Hkv. now apply (Hnone m kv). }
  exists (columns_of_rows sub). split; [|split].
  - rewrite <- (map_map fst Val), create_phrase_level_data_lists.
    rewrite combine_map_map.
    rewrite (map_ext (fun a => (fst a, snd a)) (fun a => a)), map_id
      by now intros [].
    reflexivity.
  - cbn [columns_of_rows col_list].
    rewrite (map_nth_error _ _ _ Hi). now rewrite Hlist.
  - cbn [columns_of_rows col_display].
    rewrite (map_nth_error _ _ _ Hi). now rewrite Hlist.
Qed.

End PhraseLevelOutcome.

Lemma phrase_columns_lengths_witness :
  List.length [Val [funding_mention]; Val []] = List.length ["project funding"; "abc"]
  /\ exists cols,
       @create_phrase_level_data reference_preprocess
          [Val [funding_mention]; Val []] ["project funding"; "abc"] = Ok cols
       /\ List.length (col_dict cols) = 2
       /\ List.length (col_list cols) = 2
       /\ List.length (col_display cols) = 2.
Proof.
  split; [reflexivity|].
  eexists. split; [reflexivity|].
  apply (@phrase_columns_lengths reference_preprocess
           [Val [funding_mention]; Val []] ["project funding"; "abc"]);
    reflexivity.
Defined.

Lemma unresolved_row_is_empty_witness :
  let x := ([funding_mention], "No such words here") in
  nth_error [x] 0 = Some x
  /\ (forall m kv, In m (fst x) ->
                   In kv (find_needle_spec (mention_phrase m) (lower (snd x))) ->
                   snd kv = None)
  /\ exists cols,
       @create_phrase_level_data reference_preprocess
          [Val [funding_mention]] ["No such words here"] = Ok cols
       /\ nth_error (col_list cols) 0 = Some []
       /\ nth_error (col_display cols) 0 = Some "".
Proof.
  intros x.
  assert (H1 : nth_error [x] 0 = Some x) by reflexivity.
  assert (H2 : forall m kv, In m (fst x) ->
                 In kv (@find_needle reference_preprocess (mention_phrase m) (lower (snd x))) ->
                 snd kv = None).
  { intros m kv [<- | []] Hkv. vm_compute in Hkv.
    destruct Hkv as [<- | []]. reflexivity. }
  split; [exact H1 | split; [exact H2|]].
  exact (@unresolved_row_is_empty reference_preprocess [x] 0 x H1 H2).
Defined.

(** ** The columns of the dataset *)

Section DatasetColumns.

Context {TC : TextChunking} {RC : RegexCategory} {PP : PreProcess}.

(** X15: lines 139-146 keep the dataframe rectangular. They return for
    every dataframe, leave its rows as they are, and every column they add
    (the tags, the two mention columns, the edited text and the six
    phrase-level columns) has one entry per row. *)
Theorem dataset_columns_aligned (df : list FilteredRow) (g : string) :
  exists ds,
    build_dataset df g = Ok ds
    /\ rows ds = df
    /\ List.length (pos_tag ds) = List.length df
    /\ List.length (theme_mentions ds) = List.length df
    /\ List.length (theme_mentions_user ds) = List.length df
    /\ List.length (Q3_x_edit (phrase_level ds)) = List.length df
    /\ (forall cols,
          cols = phrases (phrase_level ds) \/ cols = user_phrases (phrase_level ds) ->
          List.length (col_dict cols) = List.length df
          /\ List.length (col_list cols) = List.length df
          /\ List.length (col_display cols) = List.length df).
Proof.
  eexists. split; [apply build_dataset_returns|].
  cbn [rows pos_tag theme_mentions theme_mentions_user phrase_level
       Q3_x_edit phrases user_phrases].
  rewrite !length_map. repeat split; try reflexivity.
  all: destruct H as [-> | ->]; cbn [columns_of_rows col_dict col_list col_display];
    now rewrite !length_map, length_combine, !length_map, Nat.min_id.
Qed.

End DatasetColumns.

(** ** The exported columns *)

Lemma rename_columns_misses_old (old new : string) (labels : list string) :
  old <> new -> ~ In old (rename_columns old new labels).
Proof.
  intros Hne Hin. unfold rename_columns in Hin.
  apply in_map_iff in Hin as [c [Hc _]].
  destruct (String.eqb c old) eqn:Heq.
  - congruence.
  - apply String.eqb_neq in Heq. congruence.
Qed.

Lemma rename_columns_keeps_other (old new k : string) (labels : list string) :
  k <> old -> In k labels -> isin k (rename_columns old new labels) = true.
Proof.
  intros Hne Hin. apply isin_In. unfold rename_columns.
  apply in_map_iff. exists k. split; [|exact Hin].
  apply String.eqb_neq in Hne. now rewrite Hne.
Qed.

Lemma select_columns_returns (labels keep : list string) :
  incl keep labels -> exists cols, select_columns labels keep = Ok cols.
Proof.
  intros Hincl. unfold select_columns.
  destruct (find (fun k => negb (isin k labels)) keep) as [k|] eqn:Hf; [|eauto].
  apply find_some in Hf as [Hk Hmiss].
  apply Hincl, isin_In in Hk. rewrite Hk in Hmiss. discriminate.
Qed.

Lemma find_first {A : Type} (f : A -> bool) (pre : list A) (k : A) (rest : list A) :
  (forall a, In a pre -> f a = false) -> f k = true ->
  find f (pre ++ k :: rest) = Some k.
Proof.
  intros Hpre Hk. induction pre as [|a pre IH]; cbn [app find].
  - now rewrite Hk.
  - rewrite (Hpre a) by now left. apply IH. intros b Hb. apply Hpre. now right.
Qed.

Example selection_without_rename :
  select_columns ("Q3_x" :: columns_to_keep ++ ["lemmas"; "words"]) columns_to_keep
  = Ok columns_to_keep.
Proof. vm_compute. reflexivity. Qed.

(** X16: the selection of line 174 never returns. Line 173 has renamed
    the column [Q3_x_edit] to [Q3_x], and [columns_to_keep] still asks for
    [Q3_x_edit], so [survey_data_df[columns_to_keep]] raises [KeyError]
    whatever columns the dataframe has, and the output file is not
    written. When the dataframe has every column of [columns_to_keep]
    before the rename, [Q3_x_edit] is the label that is missing. *)
Theorem export_raises_key_error (labels : list string) :
  (exists k, export_columns labels = Raise (KeyError k)
             /\ In k columns_to_keep
             /\ ~ In k (rename_columns "Q3_x_edit" "Q3_x" labels))
  /\ (incl columns_to_keep labels ->
      export_columns labels = Raise (KeyError "Q3_x_edit")).
Proof.
  split.
  - unfold export_columns, select_columns.
    destruct (find _ columns_to_keep) as [k|] eqn:Hf.
    + apply find_some in Hf as [Hk Hmiss].
      exists k. split; [reflexivity | split; [exact Hk|]].
      intros Hin. apply isin_In in Hin. rewrite Hin in Hmiss. discriminate.
    + exfalso.
      assert (Hk : In "Q3_x_edit" columns_to_keep) by (apply isin_In; reflexivity).
      pose proof (find_none _ _ Hf _ Hk) as Hpresent. cbv beta in Hpresent.
      apply negb_false_iff, isin_In in Hpresent.
      revert Hpresent. apply rename_columns_misses_old. discriminate.
  - intros Hincl. unfold export_columns, select_columns.
    assert (Hsplit : columns_to_keep =
                     firstn 9 columns_to_keep
                     ++ "Q3_x_edit" :: skipn 10 columns_to_keep)
      by reflexivity.
    rewrite Hsplit at 1.
    rewrite find_first; [reflexivity | |].
    + intros k Hk. apply negb_false_iff.
      assert (Hin : In k columns_to_keep).
      { rewrite Hsplit. apply in_or_app. now left. }
      apply rename_columns_keeps_other; [|now apply Hincl].
      intros ->. revert Hk. vm_compute. intuition discriminate.
    + apply negb_true_iff, not_true_is_false. intros Hin. apply isin_In in Hin.
      revert Hin. apply rename_columns_misses_old. discriminate.
Qed.

(** ** Where [create_dataset] can raise before the export *)

Section DatasetOutcome.

Context {TC : TextChunking} {RC : RegexCategory} {PP : PreProcess}.

(** X17: up to line 146 [create_dataset] raises only where the comment
    filter does, with the same [KeyError]: tagging, phrase extraction and
    the phrase-level columns add no failure of their own, and when the
    filter returns the dataset is built on exactly the rows it returned. *)
Theorem create_dataset_raises_as_filter
    (survey_data_df : list SurveyRow) (g : string) :
  (forall e,
     create_dataset survey_data_df g = Raise e <->
     preproccess_filter_comment_text survey_data_df default_length_threshold = Raise e)
  /\ (forall df,
        preproccess_filter_comment_text survey_data_df default_length_threshold = Ok df ->
        exists ds, create_dataset survey_data_df g = Ok ds /\ rows ds = df).
Proof.
  unfold create_dataset.
  destruct (preproccess_filter_comment_text survey_data_df default_length_threshold)
    as [df|e0]; cbn [bind].
  - rewrite build_dataset_returns. split.
    + intros e. split; discriminate.
    + intros df' [= <-]. eexists. split; reflexivity.
  - split; [|discriminate].
    intros e. split; intros [= ->]; reflexivity.
Qed.

End DatasetOutcome.
